(** * X12 837P to JSON: claim extraction and the flat segment dump

    A shallow embedding of [x12_837p_to_claims_json.py] and
    [x12_to_json_flat.py].  Both scripts are thin consumers of the pyx12
    library: the embedding keeps the library behind an interface
    ([Pyx12]) so that the statements about the scripts hold for every
    implementation of it, and gives one implementation of that interface,
    the parsing engine as the design document describes it (delimiter
    detection, tokenizer, loop hierarchy builder, query primitives). *)

From Stdlib Require Import String Ascii List Bool Arith Lia.
From stdpp Require Import base option list strings gmap.

Set Warnings "-register-all".
Local Open Scope string_scope.
Local Open Scope list_scope.

(** ** Python values, exceptions and generators *)

(** The engine's error taxonomy. *)
Inductive x12error : Type :=
  | MalformedHeaderError
  | TokenizeError (offset : nat)
  | AmbiguousLoopTriggerError (seg : string) (candidates : list string)
  | OrphanSegmentError (seg : string) (offset : nat)
  | UnsupportedGrammarError (loop : string).

(** The exceptions the two scripts can see: the built-in ones they raise
    themselves, and the library's [X12Error] family. *)
Inductive exn : Type :=
  | FileNotFoundError (path : string)
  | RuntimeError (msg : string)
  | X12Error (e : x12error).

(** A computation that either returns or raises. *)
Inductive result (A : Type) : Type :=
  | Ok (a : A)
  | Err (e : exn).
Arguments Ok {A} a.
Arguments Err {A} e.

#[global] Instance result_ret : MRet result := fun A a => Ok a.
#[global] Instance result_bind : MBind result := fun A B f m =>
  match m with
  | Ok a => f a
  | Err e => Err e
  end.

(** A Python generator over a finite input: it yields items in order and
    then either stops or raises.  A [for] loop over it runs its body on
    every yielded item before it meets the end or the exception. *)
Inductive gen (A : Type) : Type :=
  | Stop
  | Yield (a : A) (rest : gen A)
  | Raise (e : exn).
Arguments Stop {A}.
Arguments Yield {A} a rest.
Arguments Raise {A} e.

Fixpoint gen_of_list {A} (l : list A) : gen A :=
  match l with
  | [] => Stop
  | a :: l' => Yield a (gen_of_list l')
  end.

Fixpoint gen_items {A} (g : gen A) : list A :=
  match g with
  | Yield a rest => a :: gen_items rest
  | _ => []
  end.

Fixpoint gen_error {A} (g : gen A) : option exn :=
  match g with
  | Stop => None
  | Yield _ rest => gen_error rest
  | Raise e => Some e
  end.

(** JSON-serialisable Python values.  A dict literal keeps its keys in
    the order they are written. *)
Inductive json : Type :=
  | JNull
  | JStr (s : string)
  | JList (l : list json)
  | JDict (items : list (string * json)).

(** A [str | None] value as it lands in a dict. *)
Definition of_py (v : option string) : json :=
  match v with
  | None => JNull
  | Some s => JStr s
  end.

Definition keys (j : json) : list string :=
  match j with
  | JDict items => items.*1
  | _ => []
  end.

Definition field (k : string) (j : json) : option json :=
  match j with
  | JDict items => snd <$> find (fun kv => String.eqb (fst kv) k) items
  | _ => None
  end.

(** ** The pyx12 interface used by the scripts *)

Inductive params : Type := ParamsUnix.
Inductive err_handler : Type := errh_null.

(** The calls the scripts make.  The two readers parse as they are
    iterated, so their constructors and iterations can raise; the queries
    on a node that was handed out return. *)
Class Pyx12 : Type := {
  (* x12context *)
  Ctx : Type;
  Node : Type;
  X12ContextReader : params -> err_handler -> string -> result Ctx;
  iter_segments : Ctx -> string -> gen Node;
  get_value : Node -> string -> option string;
  select : Node -> string -> list Node;
  (* x12file *)
  Reader : Type;
  Seg : Type;
  X12Reader : string -> result Reader;
  reader_iter : Reader -> gen Seg;
  get_seg_id : Seg -> string;
  values_iterator : Seg -> list json;
  (* errors *)
  x12error_str : x12error -> string;
}.

(** The file system: the text of every regular file, by path.  A path is
    taken in the form [Path] prints it. *)
Abbreviation filesystem := (gmap string string).

(** [path.open("r")], on a file system in which every path that is bound
    is a regular file that can be read: the missing file is the one
    failure.  Directories and permissions are not part of the model. *)
Definition open_r (fs : filesystem) (path : string) : result string :=
  match fs !! path with
  | Some f => Ok f
  | None => Err (FileNotFoundError path)
  end.

(** [path.is_file()] *)
Definition is_file (fs : filesystem) (path : string) : bool :=
  bool_decide (is_Some (fs !! path)).

(** What a run of a script leaves behind. *)
Record outcome : Type := {
  exit_status : nat;
  stdout : list string;
  files : filesystem;
}.

(** ** x12_837p_to_claims_json.py *)

Module Claims.
Section Script.
Context `{Pyx12}.
Variable json_dumps : json -> string.

(** The body of [for sl_loop in claim_loop.select("2400")]. *)
Fixpoint service_lines_loop (sl_loops : list Node) (service_lines : list json)
    : list json :=
  match sl_loops with
  | [] => service_lines
  | sl_loop :: rest =>
      let procedure_code := get_value sl_loop "SV101" in
      let line_charge := get_value sl_loop "SV102" in
      service_lines_loop rest
        (service_lines ++
           [JDict [("procedure_code", of_py procedure_code);
                   ("line_charge", of_py line_charge)]])
  end.

(** The body of [for claim_loop in ctx.iter_segments("2300")]. *)
Fixpoint claims_loop (claim_loops : gen Node) (claims : list json)
    : result (list json) :=
  match claim_loops with
  | Stop => Ok claims
  | Raise e => Err e
  | Yield claim_loop rest =>
      let claim_id := get_value claim_loop "CLM01" in
      let total_charge := get_value claim_loop "CLM02" in
      if bool_decide (claim_id = None) && bool_decide (total_charge = None)
      then claims_loop rest claims
      else
        let service_lines :=
          service_lines_loop (select claim_loop "2400") [] in
        claims_loop rest
          (claims ++
             [JDict [("claim_id", of_py claim_id);
                     ("total_charge", of_py total_charge);
                     ("service_lines", JList service_lines)]])
  end.

Definition extract_claims_from_837p (fs : filesystem) (path : string)
    : result (list json) :=
  let param := ParamsUnix in
  let errh := errh_null in
  let claims := [] in
  f ← open_r fs path;
  ctx ← X12ContextReader param errh f;
  claims_loop (iter_segments ctx "2300") claims.

(** The [__main__] block.  [output] is [args.output]: [None] without
    [-o]; an empty string is falsy as well.  An exception that reaches
    the top level ends the interpreter with status 1 and a traceback on
    the standard error.  The write under [-o] is taken to succeed, and
    the path is the key the text is stored under. *)
Definition main (fs : filesystem) (input : string) (output : option string)
    : outcome :=
  match extract_claims_from_837p fs input with
  | Err _ => {| exit_status := 1; stdout := []; files := fs |}
  | Ok claims =>
      let text := json_dumps (JList claims) in
      match output with
      | Some (String c o) =>
          {| exit_status := 0; stdout := [];
             files := <[String c o := text]> fs |}
      | _ => {| exit_status := 0; stdout := [text]; files := fs |}
      end
  end.
End Script.
End Claims.

(** ** x12_to_json_flat.py *)

Module Flat.
Section Script.
Context `{Pyx12}.
Variable json_dumps : json -> string.

(** The body of [for seg in reader]. *)
Fixpoint segments_loop (reader : gen Seg) (segments : list json)
    : result (list json) :=
  match reader with
  | Stop => Ok segments
  | Raise e => Err e
  | Yield seg rest =>
      let seg_id := get_seg_id seg in
      let elements := values_iterator seg in
      segments_loop rest
        (segments ++
           [JDict [("segment_id", JStr seg_id);
                   ("elements", JList elements)]])
  end.

Definition x12_to_flat_json (fs : filesystem) (path : string) : result json :=
  if negb (is_file fs path) then Err (FileNotFoundError path)
  else
    let segments := [] in
    f ← open_r fs path;
    reader ←
      match X12Reader f with
      | Err (X12Error e) =>
          Err (RuntimeError
                 (path ++ " does not look like X12: " ++ x12error_str e))
      | r => r
      end;
    segments ← segments_loop (reader_iter reader) segments;
    Ok (JDict [("file", JStr path); ("segments", JList segments)]).

Definition main (fs : filesystem) (input : string) (output : option string)
    : outcome :=
  match x12_to_flat_json fs input with
  | Err _ => {| exit_status := 1; stdout := []; files := fs |}
  | Ok data =>
      let text := json_dumps data in
      match output with
      | Some (String c o) =>
          {| exit_status := 0; stdout := [];
             files := <[String c o := text]> fs |}
      | _ => {| exit_status := 0; stdout := [text]; files := fs |}
      end
  end.
End Script.
End Flat.

(** ** The parsing engine *)

(** Modelled from the spec: pyx12 is not among the sources of the
    repository.  Every definition of this module follows the design
    document: the data model of section 3, the components of section 4 and
    the error taxonomy of section 7.  Where the document leaves a choice
    open the comment of the definition names the one taken. *)
Module Engine.

(** *** Data model *)

Record Delimiters : Type := {
  seg_term : ascii;
  ele_sep : ascii;
  sub_sep : ascii;
  rep_sep : option ascii;
}.

Inductive Element : Type :=
  | Plain (s : string)
  | Composite (subs : list string).

Record Segment : Type := {
  seg_id : string;
  elements : list Element;
}.

(** Modelled from the spec: the loop-definition grammar table (section 3).
    A qualifier names the element it is read from and the value it must
    have.  A definition without a parent sits under the implicit root. *)
Record LoopDefinition : Type := {
  ld_id : string;
  ld_parent : option string;
  ld_trigger : string;
  ld_qualifier : option (nat * string);
  ld_min : nat;
  ld_max : option nat;
  ld_children : list string;
}.

Abbreviation Grammar := (list LoopDefinition).

(** Modelled from the spec: a loop node (section 3).  Children are kept
    in file order, each a segment or a nested loop; the parent relation
    is the nesting itself. *)
Inductive LoopNode : Type :=
  | Loop (id : string) (occurrence : nat) (children : list (Segment + LoopNode)).

Definition loop_id (n : LoopNode) : string :=
  match n with Loop id _ _ => id end.

Definition occurrence (n : LoopNode) : nat :=
  match n with Loop _ occ _ => occ end.

Definition children (n : LoopNode) : list (Segment + LoopNode) :=
  match n with Loop _ _ cs => cs end.

Record LoopTree : Type := {
  root : LoopNode;
  grammar : Grammar;
}.

(** *** Text helpers *)

(** The pieces of [s] between occurrences of [sep]: one more piece than
    there are separators. *)
Fixpoint split_on (sep : ascii) (s : string) : list string :=
  match s with
  | EmptyString => [EmptyString]
  | String c s' =>
      if Ascii.eqb c sep then EmptyString :: split_on sep s'
      else
        match split_on sep s' with
        | piece :: pieces => String c piece :: pieces
        | [] => [String c EmptyString]
        end
  end.

Definition is_space (c : ascii) : bool :=
  Ascii.eqb c " " || Ascii.eqb c "009" || Ascii.eqb c "010" || Ascii.eqb c "013".

Fixpoint ltrim (s : string) : string :=
  match s with
  | String c s' => if is_space c then ltrim s' else s
  | EmptyString => EmptyString
  end.

Fixpoint rtrim (s : string) : string :=
  match s with
  | EmptyString => EmptyString
  | String c s' =>
      match rtrim s' with
      | EmptyString => if is_space c then EmptyString else String c EmptyString
      | t => String c t
      end
  end.

Definition trim (s : string) : string := rtrim (ltrim s).

Definition is_blank (s : string) : bool :=
  String.eqb (ltrim s) EmptyString.

Fixpoint contains (c : ascii) (s : string) : bool :=
  match s with
  | EmptyString => false
  | String c' s' => Ascii.eqb c c' || contains c s'
  end.

(** *** Delimiter detector *)

(** The interchange header has a fixed layout: the literal identifier,
    [header_elements] fields that each follow an element separator, the
    last of them one character wide, and the segment terminator;
    [header_width] characters in all.  The numbers are those of the X12
    [ISA] segment. *)
Definition header_id : string := "ISA".
Definition header_width : nat := 106.
Definition header_elements : nat := 16.
Definition ele_sep_offset : nat := String.length header_id.
Definition sub_sep_offset : nat := 104.
Definition seg_term_offset : nat := 105.

(** The offset of the [n]-th occurrence of [c] in [s], occurrences
    counted from 1 and offsets from [offset]. *)
Fixpoint nth_offset (c : ascii) (n : nat) (s : string) (offset : nat)
    : option nat :=
  match s with
  | EmptyString => None
  | String c' s' =>
      if Ascii.eqb c' c
      then match n with
           | 0 => None
           | 1 => Some offset
           | S n' => nth_offset c n' s' (S offset)
           end
      else nth_offset c n s' (S offset)
  end.

(** The length of the header as the text has it: the last field starts
    after the [header_elements]-th element separator, and the header ends
    with the character that follows that field.  [None] when the text has
    no such character. *)
Definition header_length (text : string) : option nat :=
  e ← String.get ele_sep_offset text;
  k ← nth_offset e header_elements text 0;
  _ ← String.get (k + 2) text;
  Some (k + 3).

(** Modelled from the spec: the delimiter detector (section 4.1).  The
    header is measured first; the separators are then read from their
    fixed offsets. *)
Definition detect_delimiters (text : string) : result Delimiters :=
  if bool_decide (header_length text = Some header_width)
  then
    match String.get ele_sep_offset text,
          String.get sub_sep_offset text,
          String.get seg_term_offset text with
    | Some e, Some c, Some t =>
        if Ascii.eqb e c || Ascii.eqb e t || Ascii.eqb c t
        then Err (X12Error MalformedHeaderError)
        else Ok {| seg_term := t; ele_sep := e; sub_sep := c; rep_sep := None |}
    | _, _, _ => Err (X12Error MalformedHeaderError)
    end
  else Err (X12Error MalformedHeaderError).

(** *** Segment tokenizer *)

Definition parse_element (d : Delimiters) (e : string) : Element :=
  if contains (sub_sep d) e then Composite (split_on (sub_sep d) e)
  else Plain e.

Definition parse_segment (d : Delimiters) (chunk : string) : Segment :=
  match split_on (ele_sep d) (trim chunk) with
  | id :: els => {| seg_id := id; elements := parse_element d <$> els |}
  | [] => {| seg_id := EmptyString; elements := [] |}
  end.

(** The chunks between terminators, with the offset each starts at.
    The last one is the fragment no terminator closes. *)
Fixpoint tokenize_chunks (d : Delimiters) (max_len : nat)
    (chunks : list string) (offset : nat) : gen Segment :=
  match chunks with
  | [] => Stop
  | [fragment] =>
      if is_blank fragment then Stop
      else Raise (X12Error (TokenizeError offset))
  | chunk :: rest =>
      if Nat.ltb max_len (String.length chunk)
      then Raise (X12Error (TokenizeError offset))
      else Yield (parse_segment d chunk)
             (tokenize_chunks d max_len rest (offset + String.length chunk + 1))
  end.

(** Modelled from the spec: the segment tokenizer (section 4.2). *)
Definition tokenize (d : Delimiters) (max_len : nat) (text : string)
    : gen Segment :=
  tokenize_chunks d max_len (split_on (seg_term d) text) 0.

(** *** Loop hierarchy builder *)

(** An open loop: the node under construction. *)
Record Frame : Type := {
  fr_id : string;
  fr_occ : nat;
  fr_children : list (Segment + LoopNode);
}.

Definition root_id : string := "ROOT".

Definition root_frame : Frame :=
  {| fr_id := root_id; fr_occ := 1; fr_children := [] |}.

Definition parent_id (ld : LoopDefinition) : string :=
  default root_id (ld_parent ld).

(** Elements are numbered from 1, as in [CLM01]. *)
Definition element_at (s : Segment) (i : nat) : option Element :=
  match i with
  | 0 => None
  | S k => elements s !! k
  end.

Definition triggers (ld : LoopDefinition) (s : Segment) : bool :=
  String.eqb (ld_trigger ld) (seg_id s) &&
  match ld_qualifier ld with
  | None => true
  | Some (i, v) =>
      match element_at s i with
      | Some (Plain x) => String.eqb x v
      | _ => false
      end
  end.

(** How many open loops sit above the innermost open loop named [pid];
    [None] when no such loop is open.  The open-loop stack has the
    innermost loop first and the root last. *)
Fixpoint frames_above (stack : list Frame) (pid : string) : option nat :=
  match stack with
  | [] => None
  | fr :: below =>
      if String.eqb (fr_id fr) pid then Some 0
      else S <$> frames_above below pid
  end.

(** Steps 1 and 3: the definitions the segment triggers whose parent is on
    the open path, each with the number of loops to close.  A definition
    whose parent is not open is no candidate: the segment is then handled
    as in step 2. *)
Definition candidates (g : Grammar) (stack : list Frame) (s : Segment)
    : list (nat * LoopDefinition) :=
  omap (fun ld =>
          if triggers ld s
          then (fun k => (k, ld)) <$> frames_above stack (parent_id ld)
          else None) g.

Definition deepest (cs : list (nat * LoopDefinition))
    : list (nat * LoopDefinition) :=
  match cs with
  | [] => []
  | c :: cs' =>
      let k := foldr Nat.min c.1 (fst <$> cs') in
      List.filter (fun c' => Nat.eqb c'.1 k) cs
  end.

Definition select_loop (g : Grammar) (stack : list Frame) (s : Segment)
    : result (option (nat * LoopDefinition)) :=
  match deepest (candidates g stack s) with
  | [] => Ok None
  | [c] => Ok (Some c)
  | tied =>
      match List.filter (fun c => bool_decide (is_Some (ld_qualifier c.2))) tied with
      | [c] => Ok (Some c)
      | _ =>
          Err (X12Error
                 (AmbiguousLoopTriggerError (seg_id s) ((ld_id ∘ snd) <$> tied)))
      end
  end.

Definition close_frame (fr : Frame) : LoopNode :=
  Loop (fr_id fr) (fr_occ fr) (fr_children fr).

Definition attach (c : Segment + LoopNode) (fr : Frame) : Frame :=
  {| fr_id := fr_id fr; fr_occ := fr_occ fr;
     fr_children := fr_children fr ++ [c] |}.

(** Close the [k] innermost open loops, each becoming a child of the loop
    below it.  The root is never closed this way. *)
Fixpoint pop (k : nat) (stack : list Frame) : list Frame :=
  match k, stack with
  | S k', fr :: parent :: below =>
      pop k' (attach (inr (close_frame fr)) parent :: below)
  | _, _ => stack
  end.

Definition count_loops (id : string) (cs : list (Segment + LoopNode)) : nat :=
  length (List.filter (fun c => match c with
                                | inr n => String.eqb (loop_id n) id
                                | inl _ => false
                                end) cs).

(** The grammar requires a loop when a top-level definition must occur at
    least once. *)
Definition requires_loop (g : Grammar) : bool :=
  existsb (fun ld => bool_decide (ld_parent ld = None) && Nat.leb 1 (ld_min ld)) g.

(** Steps 1 to 4 for one segment; [offset] is its position in the stream.
    Occurrence indices count from 1. *)
Definition step (g : Grammar) (stack : list Frame) (offset : nat) (s : Segment)
    : result (list Frame) :=
  c ← select_loop g stack s;
  match c with
  | None =>
      match stack with
      | [] => Err (X12Error (OrphanSegmentError (seg_id s) offset))
      | [r] =>
          if requires_loop g
          then Err (X12Error (OrphanSegmentError (seg_id s) offset))
          else Ok [attach (inl s) r]
      | fr :: below => Ok (attach (inl s) fr :: below)
      end
  | Some (k, ld) =>
      match pop k stack with
      | [] => Err (X12Error (OrphanSegmentError (seg_id s) offset))
      | parent :: below =>
          Ok ({| fr_id := ld_id ld;
                 fr_occ := S (count_loops (ld_id ld) (fr_children parent));
                 fr_children := [inl s] |} :: parent :: below)
      end
  end.

Fixpoint build_loop (g : Grammar) (segs : gen Segment) (stack : list Frame)
    (offset : nat) : result (list Frame) :=
  match segs with
  | Stop => Ok stack
  | Raise e => Err e
  | Yield s rest =>
      stack' ← step g stack offset s;
      build_loop g rest stack' (S offset)
  end.

Definition defined (g : Grammar) (id : string) : bool :=
  existsb (fun ld => String.eqb (ld_id ld) id) g.

Definition check_grammar (g : Grammar) : result unit :=
  match
    List.filter (fun id => negb (defined g id))
      (flat_map (fun ld => option_list (ld_parent ld) ++ ld_children ld) g)
  with
  | [] => Ok tt
  | id :: _ => Err (X12Error (UnsupportedGrammarError id))
  end.

(** Modelled from the spec: the loop hierarchy builder (section 4.3). *)
Definition build (g : Grammar) (segs : gen Segment) : result LoopTree :=
  _ ← check_grammar g;
  stack ← build_loop g segs [root_frame] 0;
  match pop (length stack) stack with
  | r :: _ => Ok {| root := close_frame r; grammar := g |}
  | [] => Ok {| root := close_frame root_frame; grammar := g |}
  end.

(** *** Loop tree query API *)

(** Modelled from the spec: [loopsOf] (section 4.4). *)
Fixpoint loopsOf (node : LoopNode) (loopId : string) : list LoopNode :=
  match node with
  | Loop id _ cs =>
      (if String.eqb id loopId then [node] else []) ++
      flat_map (fun c => match c with
                         | inl _ => []
                         | inr m => loopsOf m loopId
                         end) cs
  end.

Definition segments_of (node : LoopNode) : list Segment :=
  omap (fun c => match c with inl s => Some s | inr _ => None end)
    (children node).

(** Modelled from the spec: [valueAt] (section 4.4).  A sub-element is
    returned as a plain element. *)
Definition valueAt (node : LoopNode) (segmentId : string) (elementIndex : nat)
    (subIndex : option nat) : option Element :=
  s ← find (fun s => String.eqb (seg_id s) segmentId) (segments_of node);
  e ← element_at s elementIndex;
  match subIndex with
  | None => Some e
  | Some j =>
      match e, j with
      | Composite subs, S k => Plain <$> subs !! k
      | _, _ => None
      end
  end.

(** *** Flattening *)

Definition flatten_children (flatten : LoopNode -> list Segment)
    (cs : list (Segment + LoopNode)) : list Segment :=
  flat_map (fun c => match c with
                     | inl s => [s]
                     | inr m => flatten m
                     end) cs.

(** The segments of a tree, depth first, children in stored order. *)
Fixpoint flatten (node : LoopNode) : list Segment :=
  match node with
  | Loop _ _ cs => flatten_children flatten cs
  end.

(** The segments attached so far while loops are still open: those of
    the root first, those of the innermost open loop last. *)
Definition flatten_stack (stack : list Frame) : list Segment :=
  flat_map (fun fr => flatten_children flatten (fr_children fr)) (rev stack).

(** *** The engine behind the pyx12 interface *)

(** A node handed to the scripts: a loop of the tree together with the
    delimiters of its file. *)
Record DataNode : Type := {
  dn_delims : Delimiters;
  dn_loop : LoopNode;
}.

(** The text of an element: a composite is written with the file's
    sub-element separator. *)
Definition element_text (d : Delimiters) (e : Element) : string :=
  match e with
  | Plain s => s
  | Composite subs => String.concat (String (sub_sep d) EmptyString) subs
  end.

Definition element_json (e : Element) : json :=
  match e with
  | Plain s => JStr s
  | Composite subs => JList (JStr <$> subs)
  end.

Definition digit (c : ascii) : option nat :=
  let n := nat_of_ascii c in
  if Nat.leb 48 n && Nat.leb n 57 then Some (n - 48) else None.

Fixpoint number_from (s : string) (acc : nat) : option nat :=
  match s with
  | EmptyString => Some acc
  | String c s' => d ← digit c; number_from s' (10 * acc + d)
  end.

Definition number (s : string) : option nat :=
  match s with
  | EmptyString => None
  | _ => number_from s 0
  end.

(** A reference designator: segment identifier, two digits of element
    index and an optional [-n] sub-element index ([CLM01], [SV101],
    [CLM05-1]). *)
Definition parse_refdes (r : string) : option (string * nat * option nat) :=
  let parse_main (m : string) : option (string * nat) :=
    let n := String.length m in
    if Nat.ltb n 3 then None
    else i ← number (substring (n - 2) 2 m); Some (substring 0 (n - 2) m, i) in
  match split_on "-" r with
  | [m] => '(id, i) ← parse_main m; Some (id, i, None)
  | [m; sub] => '(id, i) ← parse_main m; j ← number sub; Some (id, i, Some j)
  | _ => None
  end.

Definition error_text (e : x12error) : string :=
  match e with
  | MalformedHeaderError => "malformed interchange header"
  | TokenizeError _ => "segment cannot be tokenized"
  | AmbiguousLoopTriggerError seg _ => "ambiguous loop trigger " ++ seg
  | OrphanSegmentError seg _ => "orphan segment " ++ seg
  | UnsupportedGrammarError id => "undefined loop " ++ id
  end.

Section Instance.
Variable g : Grammar.
Variable max_len : nat.

Definition open_reader (text : string) : result (Delimiters * string) :=
  d ← detect_delimiters text; Ok (d, text).

Definition parse (r : Delimiters * string) : result LoopTree :=
  build g (tokenize r.1 max_len r.2).

Definition nodes (d : Delimiters) (node : LoopNode) (loopId : string)
    : list DataNode :=
  (fun n => {| dn_delims := d; dn_loop := n |}) <$> loopsOf node loopId.

Definition node_value (n : DataNode) (r : string) : option string :=
  '(id, i, sub) ← parse_refdes r;
  element_text (dn_delims n) <$> valueAt (dn_loop n) id i sub.

(** Modelled from the spec: the pyx12 calls of the two scripts, answered
    by the engine of sections 4.1 to 4.4. *)
#[local] Instance engine : Pyx12 := {|
  Ctx := Delimiters * string;
  Node := DataNode;
  X12ContextReader := fun _ _ f => open_reader f;
  iter_segments := fun ctx loopId =>
    match parse ctx with
    | Err e => Raise e
    | Ok t => gen_of_list (nodes ctx.1 (root t) loopId)
    end;
  get_value := node_value;
  select := fun n loopId => nodes (dn_delims n) (dn_loop n) loopId;
  Reader := Delimiters * string;
  Seg := Segment;
  X12Reader := open_reader;
  reader_iter := fun r => tokenize r.1 max_len r.2;
  get_seg_id := seg_id;
  values_iterator := fun s => element_json <$> elements s;
  x12error_str := error_text;
|}.
End Instance.

(** Modelled from the spec: claim extraction (section 4.5) over the query
    API, with the loop identifiers and reference designators the script
    uses.  An absent value becomes null. *)
Definition absent_or_text (d : Delimiters) (v : option Element) : json :=
  of_py (element_text d <$> v).

Definition service_line_of (d : Delimiters) (sl : LoopNode) : json :=
  JDict [("procedure_code", absent_or_text d (valueAt sl "SV1" 1 None));
         ("line_charge", absent_or_text d (valueAt sl "SV1" 2 None))].

Definition claims_of (d : Delimiters) (tree : LoopTree) : list json :=
  flat_map
    (fun claim =>
       match valueAt claim "CLM" 1 None, valueAt claim "CLM" 2 None with
       | None, None => []
       | claim_id, total_charge =>
           [JDict [("claim_id", absent_or_text d claim_id);
                   ("total_charge", absent_or_text d total_charge);
                   ("service_lines",
                    JList (service_line_of d <$> loopsOf claim "2400"))]]
       end)
    (loopsOf (root tree) "2300").

(** *** An 837P grammar and interchange *)

Definition loop_def (id : string) (parent : option string) (trigger : string)
    (qualifier : option (nat * string)) (min : nat) (kids : list string)
    : LoopDefinition :=
  {| ld_id := id; ld_parent := parent; ld_trigger := trigger;
     ld_qualifier := qualifier; ld_min := min; ld_max := None;
     ld_children := kids |}.

(** The 837P loops from the interchange envelope down to the service
    line: billing provider [2000A], subscriber [2000B], claim [2300],
    service line [2400]. *)
Definition grammar_837p : Grammar :=
  [ loop_def "ISA_LOOP" None "ISA" None 1 ["GS_LOOP"];
    loop_def "GS_LOOP" (Some "ISA_LOOP") "GS" None 1 ["ST_LOOP"];
    loop_def "ST_LOOP" (Some "GS_LOOP") "ST" None 1 ["2000A"];
    loop_def "2000A" (Some "ST_LOOP") "HL" (Some (3, "20")) 1 ["2000B"];
    loop_def "2000B" (Some "2000A") "HL" (Some (3, "22")) 1 ["2300"];
    loop_def "2300" (Some "2000B") "CLM" None 1 ["2400"];
    loop_def "2400" (Some "2300") "LX" None 1 [] ].

Definition isa_header : string :=
  "ISA*00*          *00*          *ZZ*SENDERID       *ZZ*RECEIVERID     *250101*1200*^*00501*000000001*0*P*:~".

Definition sample_837p : string :=
  isa_header ++
  "GS*HC*SENDERID*RECEIVERID*20250101*1200*1*X*005010X222A1~" ++
  "ST*837*0001*005010X222A1~" ++
  "BHT*0019*00*0123*20250101*1200*CH~" ++
  "HL*1**20*1~" ++
  "NM1*85*2*CLINIC*****XX*1234567893~" ++
  "HL*2*1*22*0~" ++
  "SBR*P*18*******CI~" ++
  "CLM*CLAIM001*250.00***11:B:1*Y*A*Y*Y~" ++
  "LX*1~" ++
  "SV1*99213*100.00*UN*1***1~" ++
  "LX*2~" ++
  "SV1*99214*150.00*UN*1***1~" ++
  "SE*12*0001~" ++
  "GE*1*1~" ++
  "IEA*1*000000001~".

(** The envelope and hierarchy every sample below starts with. *)
Definition sample_prefix : string :=
  isa_header ++
  "GS*HC*SENDERID*RECEIVERID*20250101*1200*1*X*005010X222A1~" ++
  "ST*837*0001*005010X222A1~" ++
  "HL*1**20*1~" ++
  "HL*2*1*22*0~".

Definition sample_suffix : string :=
  "SE*9*0001~GE*1*1~IEA*1*000000001~".

(** Three claim loops: one with a claim id and no total charge, one with
    neither, one with both and two service lines of which the second has
    no [SV1] segment. *)
Definition sample_gaps : string :=
  sample_prefix ++
  "CLM*A1~" ++
  "CLM~" ++
  "CLM*B2*80.00~" ++
  "LX*1~" ++
  "SV1*99213*80.00~" ++
  "LX*2~" ++
  "DTP*472*D8*20250101~" ++
  sample_suffix.

(** An interchange cut off inside its header, and one cut off inside a
    later segment. *)
Definition sample_short_header : string := substring 0 60 isa_header.

Definition sample_truncated : string :=
  sample_prefix ++ "CLM*A1*10.00~" ++ "LX*1~" ++ "SV1*992".

(** A header that names [*] both as element and as sub-element
    separator. *)
Definition sample_clash : string :=
  substring 0 104 isa_header ++ "*~".

(** A header one character short (the sender field has fourteen
    characters instead of fifteen), followed by the rest of an
    interchange. *)
Definition narrow_header : string :=
  "ISA*00*          *00*          *ZZ*SENDERID      *ZZ*RECEIVERID     *250101*1200*^*00501*000000001*0*P*:~".

Definition sample_narrow : string :=
  narrow_header ++
  "GS*HC*SENDERID*RECEIVERID*20250101*1200*1*X*005010X222A1~" ++
  "ST*837*0001*005010X222A1~" ++
  "SE*2*0001~GE*1*1~IEA*1*000000001~".

Definition max_segment_length : nat := 4096.

Definition pyx12_837p : Pyx12 := engine grammar_837p max_segment_length.

End Engine.

(** ** The records of section 4.5, node by node *)

Section Records.
Context `{Pyx12}.

Definition service_line_record (sl : Node) : json :=
  JDict [("procedure_code", of_py (get_value sl "SV101"));
         ("line_charge", of_py (get_value sl "SV102"))].

Definition claim_record (n : Node) : json :=
  JDict [("claim_id", of_py (get_value n "CLM01"));
         ("total_charge", of_py (get_value n "CLM02"));
         ("service_lines", JList (service_line_record <$> select n "2400"))].

(** A claim-level entry is kept unless both identifying fields are
    absent. *)
Definition has_claim_data (n : Node) : bool :=
  negb (bool_decide (get_value n "CLM01" = None) &&
        bool_decide (get_value n "CLM02" = None)).

Definition segment_record (seg : Seg) : json :=
  JDict [("segment_id", JStr (get_seg_id seg));
         ("elements", JList (values_iterator seg))].
End Records.

(** Every loop of a tree, depth first in file order. *)
Fixpoint loops_in (node : Engine.LoopNode) : list Engine.LoopNode :=
  match node with
  | Engine.Loop _ _ cs =>
      node :: flat_map (fun c => match c with
                                 | inl _ => []
                                 | inr m => loops_in m
                                 end) cs
  end.

(** ** Helpers for statements about the scripts *)

(** One generator after another: the second is reached only when the
    first stops without raising. *)
Fixpoint gen_app {A} (g1 g2 : gen A) : gen A :=
  match g1 with
  | Stop => g2
  | Yield a rest => Yield a (gen_app rest g2)
  | Raise e => Raise e
  end.

(** Reading a [str | None] field back from a record: [None] when the
    field holds anything else. *)
Definition to_py (j : json) : option (option string) :=
  match j with
  | JNull => Some None
  | JStr s => Some (Some s)
  | _ => None
  end.

(** ** Sample runs *)

Definition sample_fs : filesystem :=
  {[ "claims.837" := Engine.sample_837p;
     "gaps.837" := Engine.sample_gaps;
     "short.837" := Engine.sample_short_header;
     "truncated.837" := Engine.sample_truncated;
     "clash.837" := Engine.sample_clash ]}.

Definition sample_delims : Engine.Delimiters :=
  {| Engine.seg_term := "~"; Engine.ele_sep := "*"; Engine.sub_sep := ":";
     Engine.rep_sep := None |}.

Definition sample_claims : list json :=
  [JDict [("claim_id", JStr "CLAIM001");
          ("total_charge", JStr "250.00");
          ("service_lines",
           JList [JDict [("procedure_code", JStr "99213");
                         ("line_charge", JStr "100.00")];
                  JDict [("procedure_code", JStr "99214");
                         ("line_charge", JStr "150.00")]])]].

Definition sample_gaps_claims : list json :=
  [JDict [("claim_id", JStr "A1");
          ("total_charge", JNull);
          ("service_lines", JList [])];
   JDict [("claim_id", JStr "B2");
          ("total_charge", JStr "80.00");
          ("service_lines",
           JList [JDict [("procedure_code", JStr "99213");
                         ("line_charge", JStr "80.00")];
                  JDict [("procedure_code", JNull);
                         ("line_charge", JNull)]])]].

(** The claim-level entries the engine yields for a file. *)
Definition sample_entries (text : string) : list Engine.DataNode :=
  gen_items
    (@iter_segments Engine.pyx12_837p (sample_delims, text) "2300").

(** The tree the engine builds for the first sample, its claim loop and the
    two service-line loops under it. *)
Definition empty_loop : Engine.LoopNode := Engine.Loop "" 0 [].

Definition sample_tree : Engine.LoopTree :=
  match
    Engine.build Engine.grammar_837p
      (Engine.tokenize sample_delims Engine.max_segment_length Engine.sample_837p)
  with
  | Ok t => t
  | Err _ => {| Engine.root := empty_loop; Engine.grammar := [] |}
  end.

Definition sample_claim : Engine.LoopNode :=
  nth 0 (Engine.loopsOf (Engine.root sample_tree) "2300") empty_loop.

Definition sample_line (j : nat) : Engine.LoopNode :=
  nth j (Engine.loopsOf sample_claim "2400") empty_loop.

Definition sample_gaps_tree : Engine.LoopTree :=
  match
    Engine.build Engine.grammar_837p
      (Engine.tokenize sample_delims Engine.max_segment_length Engine.sample_gaps)
  with
  | Ok t => t
  | Err _ => {| Engine.root := empty_loop; Engine.grammar := [] |}
  end.

Definition sample_gaps_claim : Engine.LoopNode :=
  nth 0 (Engine.loopsOf (Engine.root sample_gaps_tree) "2300") empty_loop.

(** A file system holding the interchange with the narrow header. *)
Definition sample_narrow_fs : filesystem :=
  {[ "narrow.837" := Engine.sample_narrow ]}.

(** The second kept entry of the sample with gaps: claim [B2]. *)
Definition sample_gaps_second : Engine.DataNode :=
  nth 1 (List.filter (@has_claim_data Engine.pyx12_837p)
           (sample_entries Engine.sample_gaps))
    {| Engine.dn_delims := sample_delims; Engine.dn_loop := empty_loop |}.

(** A stand-in for [json.dumps] in the sample runs: compact, and without
    escapes. *)
Definition quoted (s : string) : string :=
  let q := String (ascii_of_nat 34) EmptyString in
  (q ++ s ++ q)%string.

Fixpoint sample_dumps (j : json) : string :=
  match j with
  | JNull => "null"
  | JStr s => quoted s
  | JList l => ("[" ++ String.concat "," (map sample_dumps l) ++ "]")%string
  | JDict items =>
      ("{" ++ String.concat ","
                (map (fun kv => (quoted (fst kv) ++ ":" ++ sample_dumps (snd kv))%string)
                   items) ++ "}")%string
  end.

(** * Properties *)

(** ** Generators *)

Lemma gen_items_of_list {A} (l : list A) : gen_items (gen_of_list l) = l.
Proof. induction l as [|a l IH]; simpl; congruence. Qed.

Lemma gen_error_of_list {A} (l : list A) : gen_error (gen_of_list l) = None.
Proof. induction l as [|a l IH]; simpl; congruence. Qed.

Lemma gen_of_list_items {A} (g : gen A) :
  gen_error g = None -> g = gen_of_list (gen_items g).
Proof.
  induction g as [|a g IH|e]; simpl; intros Hg.
  - reflexivity.
  - f_equal. auto.
  - discriminate.
Qed.

(** ** The loops of the claim extraction *)

Section ClaimsLoops.
Context `{Pyx12}.

Lemma service_lines_loop_app (sls : list Node) (acc : list json) :
  Claims.service_lines_loop sls acc = acc ++ (service_line_record <$> sls).
Proof.
  revert acc. induction sls as [|sl sls IH]; intros acc; simpl.
  - by rewrite app_nil_r.
  - rewrite IH. by rewrite <- app_assoc.
Qed.

Lemma service_lines_loop_map (sls : list Node) :
  Claims.service_lines_loop sls [] = service_line_record <$> sls.
Proof. apply service_lines_loop_app. Qed.

(** One iteration of the outer loop. *)
Lemma claims_loop_yield (n : Node) (rest : gen Node) (acc : list json) :
  Claims.claims_loop (Yield n rest) acc =
  Claims.claims_loop rest
    (if has_claim_data n then acc ++ [claim_record n] else acc).
Proof.
  simpl. unfold has_claim_data, claim_record.
  rewrite service_lines_loop_map.
  by destruct (bool_decide (get_value n "CLM01" = None) &&
               bool_decide (get_value n "CLM02" = None)).
Qed.

(** The outer loop on a generator: the exception, if the generator
    raises; otherwise the records of the kept entries, appended in
    order. *)
Lemma claims_loop_gen (g : gen Node) (acc : list json) :
  Claims.claims_loop g acc =
  match gen_error g with
  | Some e => Err e
  | None => Ok (acc ++ (claim_record <$> List.filter has_claim_data (gen_items g)))
  end.
Proof.
  revert acc. induction g as [|n g IH|e]; intros acc.
  - simpl. by rewrite app_nil_r.
  - rewrite claims_loop_yield, IH. simpl gen_error. simpl gen_items.
    destruct (gen_error g); [done|]. simpl List.filter.
    destruct (has_claim_data n); [|done].
    by rewrite fmap_cons, <- app_assoc.
  - done.
Qed.

Lemma extract_claims_run (fs : filesystem) (path f : string) (ctx : Ctx) :
  fs !! path = Some f ->
  X12ContextReader ParamsUnix errh_null f = Ok ctx ->
  Claims.extract_claims_from_837p fs path =
  Claims.claims_loop (iter_segments ctx "2300") [].
Proof.
  intros Hf Hctx. unfold Claims.extract_claims_from_837p, open_r.
  rewrite Hf. simpl. unfold mbind, result_bind. by rewrite Hctx.
Qed.

Lemma extract_claims_ok (fs : filesystem) (path f : string) (ctx : Ctx)
    (entries : list Node) :
  fs !! path = Some f ->
  X12ContextReader ParamsUnix errh_null f = Ok ctx ->
  iter_segments ctx "2300" = gen_of_list entries ->
  Claims.extract_claims_from_837p fs path =
  Ok (claim_record <$> List.filter has_claim_data entries).
Proof.
  intros Hf Hctx Hit. rewrite (extract_claims_run _ _ _ _ Hf Hctx), Hit.
  rewrite claims_loop_gen, gen_error_of_list, gen_items_of_list. done.
Qed.

(** A run that returns has read the file, built the reader and met no
    exception while iterating. *)
Lemma extract_claims_ok_inv (fs : filesystem) (path : string) (out : list json) :
  Claims.extract_claims_from_837p fs path = Ok out ->
  exists f ctx entries,
    fs !! path = Some f /\
    X12ContextReader ParamsUnix errh_null f = Ok ctx /\
    iter_segments ctx "2300" = gen_of_list entries /\
    out = claim_record <$> List.filter has_claim_data entries.
Proof.
  unfold Claims.extract_claims_from_837p, open_r.
  destruct (fs !! path) as [f|] eqn:Hf; [|done]. simpl.
  unfold mbind, result_bind.
  destruct (X12ContextReader ParamsUnix errh_null f) as [ctx|e] eqn:Hctx; [|done].
  rewrite claims_loop_gen.
  destruct (gen_error (iter_segments ctx "2300")) eqn:Hg; [done|].
  intros [= <-]. exists f, ctx, (gen_items (iter_segments ctx "2300")).
  split_and!; try done. by apply gen_of_list_items.
Qed.

Lemma extract_claims_err (fs : filesystem) (path f : string) (e : exn) :
  fs !! path = Some f ->
  (X12ContextReader ParamsUnix errh_null f = Err e \/
   exists ctx, X12ContextReader ParamsUnix errh_null f = Ok ctx /\
               gen_error (iter_segments ctx "2300") = Some e) ->
  Claims.extract_claims_from_837p fs path = Err e.
Proof.
  intros Hf Hfail. unfold Claims.extract_claims_from_837p, open_r.
  rewrite Hf. simpl. unfold mbind, result_bind.
  destruct Hfail as [-> | (ctx & -> & Hg)]; [done|].
  by rewrite claims_loop_gen, Hg.
Qed.
End ClaimsLoops.

(** ** Claim extraction *)

Section ClaimExtraction.
Context `{Pyx12}.

Lemma filter_sublist_of {A} (p : A -> bool) (l : list A) :
  List.filter p l `sublist_of` l.
Proof.
  induction l as [|a l IH]; simpl.
  - constructor.
  - destruct (p a); by constructor.
Qed.

Lemma flat_map_filter_map {A B} (p : A -> bool) (f : A -> B) (l : list A) :
  flat_map (fun a => if p a then [f a] else []) l = f <$> List.filter p l.
Proof.
  induction l as [|a l IH]; simpl; [done|].
  rewrite IH. by destruct (p a).
Qed.

(** C1: a claim-level entry yields no record exactly when both the claim
    identifier and the total charge are absent; otherwise it yields one
    record, a missing field being null.  The output is the concatenation
    of what the entries yield, in order. *)
Theorem claim_dropped_iff_both_absent
    (fs : filesystem) (path f : string) (ctx : Ctx) (entries : list Node) :
  fs !! path = Some f ->
  X12ContextReader ParamsUnix errh_null f = Ok ctx ->
  iter_segments ctx "2300" = gen_of_list entries ->
  Claims.extract_claims_from_837p fs path =
  Ok (flat_map
        (fun n =>
           match get_value n "CLM01", get_value n "CLM02" with
           | None, None => []
           | claim_id, total_charge =>
               [JDict [("claim_id", of_py claim_id);
                       ("total_charge", of_py total_charge);
                       ("service_lines",
                        JList (Claims.service_lines_loop (select n "2400") []))]]
           end) entries).
Proof.
  intros Hf Hctx Hit.
  rewrite (extract_claims_ok _ _ _ _ _ Hf Hctx Hit).
  rewrite <- flat_map_filter_map. f_equal.
  apply flat_map_ext. intros n.
  unfold has_claim_data, claim_record. rewrite service_lines_loop_map.
  destruct (get_value n "CLM01"), (get_value n "CLM02"); reflexivity.
Qed.

(** C3: the record of a kept claim carries one service-line record for
    every service-line loop under it, at the same position, whatever the
    loop holds: procedure code and line charge are null when absent. *)
Theorem service_lines_never_dropped
    (fs : filesystem) (path f : string) (ctx : Ctx) (entries : list Node) :
  fs !! path = Some f ->
  X12ContextReader ParamsUnix errh_null f = Ok ctx ->
  iter_segments ctx "2300" = gen_of_list entries ->
  exists out,
    Claims.extract_claims_from_837p fs path = Ok out /\
    forall n,
      n ∈ entries ->
      has_claim_data n = true ->
      exists service_lines,
        JDict [("claim_id", of_py (get_value n "CLM01"));
               ("total_charge", of_py (get_value n "CLM02"));
               ("service_lines", JList service_lines)] ∈ out /\
        length service_lines = length (select n "2400") /\
        forall j sl,
          select n "2400" !! j = Some sl ->
          service_lines !! j =
          Some (JDict [("procedure_code", of_py (get_value sl "SV101"));
                       ("line_charge", of_py (get_value sl "SV102"))]).
Proof.
  intros Hf Hctx Hit. eexists. split.
  { exact (extract_claims_ok _ _ _ _ _ Hf Hctx Hit). }
  intros n Hn Hkept. exists (service_line_record <$> select n "2400").
  split_and!.
  - apply (list_elem_of_fmap_2 claim_record).
    apply list_elem_of_In, filter_In. split; [by apply list_elem_of_In|done].
  - by rewrite length_fmap.
  - intros j sl Hj. by rewrite list_lookup_fmap, Hj.
Qed.

(** C4: the kept entries are a subsequence of the entries in file order;
    the i-th record of the output is the record of the i-th kept entry,
    and its j-th service line is the record of the j-th service-line
    loop of that entry. *)
Theorem extraction_preserves_file_order
    (fs : filesystem) (path f : string) (ctx : Ctx) (entries : list Node) :
  fs !! path = Some f ->
  X12ContextReader ParamsUnix errh_null f = Ok ctx ->
  iter_segments ctx "2300" = gen_of_list entries ->
  let kept := List.filter has_claim_data entries in
  exists out,
    Claims.extract_claims_from_837p fs path = Ok out /\
    kept `sublist_of` entries /\
    length out = length kept /\
    forall i n,
      kept !! i = Some n ->
      exists service_lines,
        out !! i =
        Some (JDict [("claim_id", of_py (get_value n "CLM01"));
                     ("total_charge", of_py (get_value n "CLM02"));
                     ("service_lines", JList service_lines)]) /\
        length service_lines = length (select n "2400") /\
        forall j,
          service_lines !! j = service_line_record <$> select n "2400" !! j.
Proof.
  intros Hf Hctx Hit kept. eexists. split_and!.
  - exact (extract_claims_ok _ _ _ _ _ Hf Hctx Hit).
  - apply filter_sublist_of.
  - by rewrite length_fmap.
  - intros i n Hi. exists (service_line_record <$> select n "2400").
    split_and!.
    + rewrite list_lookup_fmap. fold kept. by rewrite Hi.
    + by rewrite length_fmap.
    + intros j. by rewrite list_lookup_fmap.
Qed.

(** C10: every record returned has exactly the keys [claim_id],
    [total_charge] and [service_lines]; [service_lines] is a list with one
    entry per service-line loop of the entry the record comes from (so the
    empty list when there is none), and each of its entries has exactly
    the keys [procedure_code] and [line_charge]. *)
Theorem claim_records_shape (fs : filesystem) (path : string) (out : list json) :
  Claims.extract_claims_from_837p fs path = Ok out ->
  exists kept : list Node,
    Forall2
      (fun n r =>
         keys r = ["claim_id"; "total_charge"; "service_lines"] /\
         exists service_lines,
           field "service_lines" r = Some (JList service_lines) /\
           length service_lines = length (select n "2400") /\
           Forall (fun sl => keys sl = ["procedure_code"; "line_charge"])
             service_lines)
      kept out.
Proof.
  intros Hrun.
  destruct (extract_claims_ok_inv _ _ _ Hrun) as (f & ctx & entries & _ & _ & _ & ->).
  exists (List.filter has_claim_data entries).
  apply Forall2_fmap_r, Forall_Forall2_diag, Forall_forall.
  intros n _. split; [reflexivity|].
  exists (service_line_record <$> select n "2400"). split_and!.
  - reflexivity.
  - by rewrite length_fmap.
  - apply Forall_fmap, Forall_forall. by intros sl _.
Qed.
End ClaimExtraction.

(** ** The flat dump *)

Section FlatDump.
Context `{Pyx12}.

Lemma segments_loop_gen (g : gen Seg) (acc : list json) :
  Flat.segments_loop g acc =
  match gen_error g with
  | Some e => Err e
  | None => Ok (acc ++ (segment_record <$> gen_items g))
  end.
Proof.
  revert acc. induction g as [|seg g IH|e]; intros acc; simpl.
  - by rewrite app_nil_r.
  - rewrite IH. destruct (gen_error g); [done|].
    by rewrite <- app_assoc.
  - done.
Qed.

Lemma is_file_lookup (fs : filesystem) (path f : string) :
  fs !! path = Some f -> is_file fs path = true.
Proof. intros Hf. unfold is_file. rewrite Hf. by apply bool_decide_eq_true. Qed.

Lemma flat_json_ok (fs : filesystem) (path f : string) (reader : Reader)
    (segs : list Seg) :
  fs !! path = Some f ->
  X12Reader f = Ok reader ->
  reader_iter reader = gen_of_list segs ->
  Flat.x12_to_flat_json fs path =
  Ok (JDict [("file", JStr path);
             ("segments", JList (segment_record <$> segs))]).
Proof.
  intros Hf Hr Hit. unfold Flat.x12_to_flat_json, open_r.
  rewrite (is_file_lookup _ _ _ Hf), Hf. simpl.
  unfold mbind, result_bind. rewrite Hr, Hit, segments_loop_gen.
  by rewrite gen_error_of_list, gen_items_of_list.
Qed.

(** C2: when the reader opens and its iteration runs to the end, the
    dump's [segments] list has one entry per segment the reader yields,
    the i-th entry made of the i-th segment's identifier and elements. *)
Theorem flat_dump_lists_every_segment
    (fs : filesystem) (path f : string) (reader : Reader) (segs : list Seg) :
  fs !! path = Some f ->
  X12Reader f = Ok reader ->
  reader_iter reader = gen_of_list segs ->
  exists segments,
    Flat.x12_to_flat_json fs path =
    Ok (JDict [("file", JStr path); ("segments", JList segments)]) /\
    length segments = length segs /\
    forall i,
      segments !! i =
      (fun seg => JDict [("segment_id", JStr (get_seg_id seg));
                         ("elements", JList (values_iterator seg))]) <$> segs !! i.
Proof.
  intros Hf Hr Hit. exists (segment_record <$> segs). split_and!.
  - exact (flat_json_ok _ _ _ _ _ Hf Hr Hit).
  - by rewrite length_fmap.
  - intros i. by rewrite list_lookup_fmap.
Qed.
End FlatDump.

(** ** Failures *)

Section Failures.
Context `{Pyx12}.
Variable json_dumps : json -> string.

Lemma claims_main_err (fs : filesystem) (input : string) (output : option string)
    (e : exn) :
  Claims.extract_claims_from_837p fs input = Err e ->
  Claims.main json_dumps fs input output =
  {| exit_status := 1; stdout := []; files := fs |}.
Proof. intros Hrun. unfold Claims.main. by rewrite Hrun. Qed.

Lemma flat_main_err (fs : filesystem) (input : string) (output : option string)
    (e : exn) :
  Flat.x12_to_flat_json fs input = Err e ->
  Flat.main json_dumps fs input output =
  {| exit_status := 1; stdout := []; files := fs |}.
Proof. intros Hrun. unfold Flat.main. by rewrite Hrun. Qed.

(** C7: when the input file is missing, the reader cannot be built, or
    the iteration over the claim loops raises (whatever it yielded
    before), the extraction raises that exception and returns no claims;
    the script then ends with a non-zero status, prints nothing and leaves
    the file system as it was. *)
Theorem parse_error_aborts_extraction (fs : filesystem) (path : string) (e : exn) :
  (fs !! path = None /\ e = FileNotFoundError path) \/
  (exists f, fs !! path = Some f /\
             X12ContextReader ParamsUnix errh_null f = Err e) \/
  (exists f ctx, fs !! path = Some f /\
                 X12ContextReader ParamsUnix errh_null f = Ok ctx /\
                 gen_error (iter_segments ctx "2300") = Some e) ->
  Claims.extract_claims_from_837p fs path = Err e /\
  forall output,
    let run := Claims.main json_dumps fs path output in
    exit_status run <> 0 /\ stdout run = [] /\ files run = fs.
Proof.
  intros Hfail.
  assert (Hrun : Claims.extract_claims_from_837p fs path = Err e).
  { destruct Hfail as [[Hf ->] | [(f & Hf & Hctx) | (f & ctx & Hf & Hctx & Hg)]].
    - unfold Claims.extract_claims_from_837p, open_r. by rewrite Hf.
    - apply (extract_claims_err _ _ f); auto.
    - apply (extract_claims_err _ _ f); eauto. }
  split; [done|]. intros output run. subst run.
  rewrite (claims_main_err _ _ _ _ Hrun). simpl. by split_and!.
Qed.

End Failures.

(** ** The engine *)

Section EngineFacts.
Import Engine.

Lemma LoopNode_nested_ind (P : LoopNode -> Prop) :
  (forall id occ cs, (forall m, inr m ∈ cs -> P m) -> P (Loop id occ cs)) ->
  forall n, P n.
Proof.
  intros Hloop. fix IH 1. intros [id occ cs]. apply Hloop.
  assert (Hall : Forall (fun c => match c with inl _ => True | inr m => P m end) cs).
  { induction cs as [|c cs IHcs]; constructor; [|exact IHcs].
    destruct c as [s|m]; [exact I|apply IH]. }
  intros m Hm. rewrite Forall_forall in Hall. exact (Hall _ Hm).
Qed.

(** [loopsOf] keeps, of all the loops of a tree in depth-first order,
    those with the identifier asked for. *)
Lemma loopsOf_filter (node : LoopNode) (loopId : string) :
  loopsOf node loopId =
  List.filter (fun m => String.eqb (loop_id m) loopId) (loops_in node).
Proof.
  induction node as [id occ cs IH] using LoopNode_nested_ind.
  simpl. assert (Hcs :
    flat_map (fun c => match c with inl _ => [] | inr m => loopsOf m loopId end) cs =
    List.filter (fun m => String.eqb (loop_id m) loopId)
      (flat_map (fun c => match c with inl _ => [] | inr m => loops_in m end) cs)).
  { induction cs as [|c cs IHcs]; simpl; [done|].
    rewrite List.filter_app, IHcs.
    - f_equal. destruct c as [s|m]; [done|]. apply IH. by left.
    - intros m Hm. apply IH. by right. }
  rewrite Hcs. by destruct (String.eqb id loopId).
Qed.

Lemma loopsOf_none (node : LoopNode) (loopId : string) :
  (forall m, m ∈ loops_in node -> loop_id m <> loopId) ->
  loopsOf node loopId = [].
Proof.
  intros Hnone. rewrite loopsOf_filter.
  induction (loops_in node) as [|m l IH]; simpl; [done|].
  destruct (String.eqb_spec (loop_id m) loopId) as [Heq|_].
  - destruct (Hnone m); [by left|done].
  - apply IH. intros m' Hm'. apply Hnone. by right.
Qed.
(** The three ways a value can be missing. *)
Lemma valueAt_no_segment (node : LoopNode) (segmentId : string) (i : nat)
    (sub : option nat) :
  (forall s, s ∈ segments_of node -> seg_id s <> segmentId) ->
  valueAt node segmentId i sub = None.
Proof.
  intros Hnone. unfold valueAt.
  destruct (find _ (segments_of node)) as [s|] eqn:Hfind; [|done].
  apply find_some in Hfind as [Hin Heq].
  apply String.eqb_eq in Heq. apply list_elem_of_In in Hin.
  by destruct (Hnone s Hin).
Qed.

Lemma valueAt_no_element (node : LoopNode) (segmentId : string) (i : nat)
    (sub : option nat) (s : Segment) :
  find (fun s => String.eqb (seg_id s) segmentId) (segments_of node) = Some s ->
  i = 0 \/ length (elements s) < i ->
  valueAt node segmentId i sub = None.
Proof.
  intros Hfind Hi. unfold valueAt. rewrite Hfind. simpl.
  destruct i as [|k]; [done|]. simpl.
  destruct Hi as [|Hlen]; [done|].
  rewrite (lookup_ge_None_2 (elements s) k); [done|lia].
Qed.

Lemma valueAt_no_sub_element (node : LoopNode) (segmentId : string) (i j : nat)
    (s : Segment) (e : Element) :
  find (fun s => String.eqb (seg_id s) segmentId) (segments_of node) = Some s ->
  element_at s i = Some e ->
  match e with
  | Plain _ => True
  | Composite subs => j = 0 \/ length subs < j
  end ->
  valueAt node segmentId i (Some j) = None.
Proof.
  intros Hfind He Hj. unfold valueAt. rewrite Hfind. simpl. rewrite He. simpl.
  destruct e as [x|subs]; [done|]. destruct j as [|k]; [done|].
  destruct Hj as [|Hlen]; [done|].
  rewrite (lookup_ge_None_2 subs k); [done|lia].
Qed.

(** The script's calls on an engine node, as query-API calls. *)
Lemma node_value_valueAt (d : Delimiters) (n : LoopNode) :
  let node := {| dn_delims := d; dn_loop := n |} in
  node_value node "CLM01" = element_text d <$> valueAt n "CLM" 1 None /\
  node_value node "CLM02" = element_text d <$> valueAt n "CLM" 2 None /\
  node_value node "SV101" = element_text d <$> valueAt n "SV1" 1 None /\
  node_value node "SV102" = element_text d <$> valueAt n "SV1" 2 None.
Proof. by split_and!. Qed.

Section OverEngine.
Variable g : Grammar.
Variable max_len : nat.
#[local] Abbreviation lib := (engine g max_len).

Lemma engine_service_line (d : Delimiters) (sl : LoopNode) :
  @service_line_record lib {| dn_delims := d; dn_loop := sl |} =
  service_line_of d sl.
Proof. reflexivity. Qed.

Lemma engine_claims (d : Delimiters) (loops : list LoopNode) :
  @claim_record lib <$>
    List.filter (@has_claim_data lib)
      ((fun n => {| dn_delims := d; dn_loop := n |}) <$> loops) =
  flat_map
    (fun claim =>
       match valueAt claim "CLM" 1 None, valueAt claim "CLM" 2 None with
       | None, None => []
       | claim_id, total_charge =>
           [JDict [("claim_id", absent_or_text d claim_id);
                   ("total_charge", absent_or_text d total_charge);
                   ("service_lines",
                    JList (service_line_of d <$> loopsOf claim "2400"))]]
       end) loops.
Proof.
  induction loops as [|n loops IH]; [done|].
  rewrite fmap_cons. simpl List.filter. simpl flat_map. rewrite <- IH.
  assert (Hsl : @claim_record lib {| dn_delims := d; dn_loop := n |} =
    JDict [("claim_id", absent_or_text d (valueAt n "CLM" 1 None));
           ("total_charge", absent_or_text d (valueAt n "CLM" 2 None));
           ("service_lines", JList (service_line_of d <$> loopsOf n "2400"))]).
  { unfold claim_record. simpl select. unfold nodes.
    rewrite <- list_fmap_compose. reflexivity. }
  unfold has_claim_data. simpl get_value.
  destruct (node_value_valueAt d n) as (-> & -> & _ & _).
  destruct (valueAt n "CLM" 1 None), (valueAt n "CLM" 2 None);
    simpl; by rewrite ?Hsl.
Qed.

(** The script over the engine computes the extraction of section 4.5. *)
Lemma engine_extract (fs : filesystem) (path text : string) (d : Delimiters)
    (tree : LoopTree) :
  fs !! path = Some text ->
  detect_delimiters text = Ok d ->
  build g (tokenize d max_len text) = Ok tree ->
  @Claims.extract_claims_from_837p lib fs path = Ok (claims_of d tree).
Proof.
  intros Hf Hd Hbuild.
  rewrite (@extract_claims_ok lib fs path text (d, text)
             (nodes d (root tree) "2300") Hf).
  - unfold nodes, claims_of. by rewrite engine_claims.
  - simpl. unfold open_reader. by rewrite Hd.
  - simpl. unfold parse. simpl. by rewrite Hbuild.
Qed.
End OverEngine.
(** *** The builder keeps every segment *)

Lemma flatten_children_app (cs1 cs2 : list (Segment + LoopNode)) :
  flatten_children flatten (cs1 ++ cs2) =
  flatten_children flatten cs1 ++ flatten_children flatten cs2.
Proof. apply flat_map_app. Qed.

Lemma flatten_stack_cons (fr : Frame) (stack : list Frame) :
  flatten_stack (fr :: stack) =
  flatten_stack stack ++ flatten_children flatten (fr_children fr).
Proof.
  unfold flatten_stack. simpl. rewrite flat_map_app. simpl.
  by rewrite app_nil_r.
Qed.

Lemma flatten_stack_attach (c : Segment + LoopNode) (fr : Frame)
    (stack : list Frame) :
  flatten_stack (attach c fr :: stack) =
  flatten_stack (fr :: stack) ++ flatten_children flatten [c].
Proof.
  rewrite !flatten_stack_cons. simpl. rewrite flatten_children_app.
  by rewrite app_assoc.
Qed.

(** Closing loops moves no segment. *)
Lemma pop_flatten (k : nat) (stack : list Frame) :
  flatten_stack (pop k stack) = flatten_stack stack.
Proof.
  revert stack. induction k as [|k IH]; intros [|fr [|parent below]]; simpl;
    try done.
  rewrite IH, flatten_stack_attach, (flatten_stack_cons fr). simpl.
  by rewrite app_nil_r.
Qed.

Lemma pop_bottom (k : nat) (stack : list Frame) :
  fr_id <$> last (pop k stack) = fr_id <$> last stack.
Proof.
  revert stack. induction k as [|k IH]; intros [|fr [|parent below]]; simpl;
    try done.
  rewrite IH. by destruct below.
Qed.

(** Closing as many loops as are open leaves the root alone. *)
Lemma pop_all (k : nat) (stack : list Frame) :
  stack <> [] -> length stack <= k -> exists r, pop k stack = [r].
Proof.
  revert stack. induction k as [|k IH]; intros [|fr [|parent below]] Hne Hk;
    simpl in *; try done; try lia; eauto.
  apply IH; [done|simpl; lia].
Qed.

Lemma step_flatten (g : Grammar) (stack stack' : list Frame) (offset : nat)
    (s : Segment) :
  step g stack offset s = Ok stack' ->
  flatten_stack stack' = flatten_stack stack ++ [s] /\
  stack' <> [] /\
  (stack <> [] -> fr_id <$> last stack' = fr_id <$> last stack).
Proof.
  unfold step. destruct (select_loop g stack s) as [[[k ld]|]|e]; simpl;
    [| |done].
  - destruct (pop k stack) as [|parent below] eqn:Hpop; [done|].
    intros [= <-]. split_and!; [|done|].
    + rewrite flatten_stack_cons. simpl.
      by rewrite <- Hpop, pop_flatten.
    + intros _. rewrite <- (pop_bottom k stack), Hpop. done.
  - destruct stack as [|r [|fr below]]; [done| |].
    + destruct (requires_loop g); [done|]. intros [= <-].
      split_and!; [|done|done]. by rewrite flatten_stack_attach.
    + intros [= <-]. split_and!; [|done|done].
      by rewrite flatten_stack_attach.
Qed.

Lemma build_loop_flatten (g : Grammar) (segs : list Segment)
    (stack stack' : list Frame) (offset : nat) :
  stack <> [] ->
  build_loop g (gen_of_list segs) stack offset = Ok stack' ->
  flatten_stack stack' = flatten_stack stack ++ segs /\
  stack' <> [] /\
  fr_id <$> last stack' = fr_id <$> last stack.
Proof.
  revert stack offset. induction segs as [|s segs IH]; intros stack offset Hne;
    simpl.
  - intros [= <-]. by rewrite app_nil_r.
  - destruct (step g stack offset s) as [stack1|e] eqn:Hstep; simpl; [|done].
    destruct (step_flatten _ _ _ _ _ Hstep) as (Hflat & Hne1 & Hbottom).
    intros Hrest. destruct (IH _ _ Hne1 Hrest) as (Hflat' & Hne' & Hbottom').
    split_and!; [|done|].
    + rewrite Hflat', Hflat. by rewrite <- app_assoc.
    + rewrite Hbottom'. by apply Hbottom.
Qed.

(** When the stream ends and every open loop is closed, only the root is
    left, and flattening it gives back the segments in the order they
    came. *)
Lemma build_keeps_segments (g : Grammar) (segs : list Segment) (tree : LoopTree) :
  build g (gen_of_list segs) = Ok tree ->
  flatten (root tree) = segs /\
  loop_id (root tree) = root_id /\
  grammar tree = g.
Proof.
  unfold build. destruct (check_grammar g); simpl; [|done].
  destruct (build_loop g (gen_of_list segs) [root_frame] 0) as [stack|e] eqn:Hb;
    simpl; [|done].
  assert (Hroot : [root_frame] <> []) by done.
  destruct (build_loop_flatten _ _ _ _ _ Hroot Hb) as (Hflat & Hne & Hbottom).
  destruct (pop_all (length stack) stack Hne (Nat.le_refl _)) as [r Hr].
  rewrite Hr. intros [= <-]. simpl. split_and!; [| |done].
  - change (flatten_children flatten (fr_children r)) with
      (flatten_children flatten [] ++ flatten_children flatten (fr_children r)).
    change (flatten_children flatten []) with (flatten_stack []).
    rewrite <- flatten_stack_cons, <- Hr, pop_flatten, Hflat. done.
  - pose proof (pop_bottom (length stack) stack) as Hb'.
    rewrite Hr, Hbottom in Hb'. simpl in Hb'. by injection Hb'.
Qed.

(** *** The interchange header *)

Lemma get_beyond (s : string) (n : nat) :
  String.length s <= n -> String.get n s = None.
Proof.
  revert n. induction s as [|c s IH]; intros n Hn; destruct n; simpl in *;
    try done; try lia.
  apply IH. lia.
Qed.

Lemma get_within (s : string) (n : nat) (c : ascii) :
  String.get n s = Some c -> n < String.length s.
Proof.
  intros Hget. destruct (Nat.lt_ge_cases n (String.length s)) as [|Hle]; [done|].
  by rewrite (get_beyond s n Hle) in Hget.
Qed.

(** The header the text has is no longer than the text. *)
Lemma header_length_within (text : string) (n : nat) :
  header_length text = Some n -> n <= String.length text.
Proof.
  unfold header_length.
  destruct (String.get ele_sep_offset text) as [e|]; [|done]. simpl.
  destruct (nth_offset e header_elements text 0) as [k|]; [|done]. simpl.
  destruct (String.get (k + 2) text) as [t|] eqn:Ht; [|done]. simpl.
  intros [= <-]. apply get_within in Ht. lia.
Qed.

Lemma detect_wrong_width (text : string) :
  header_length text <> Some header_width ->
  detect_delimiters text = Err (X12Error MalformedHeaderError).
Proof.
  intros Hlen. unfold detect_delimiters. by rewrite bool_decide_eq_false_2.
Qed.

Lemma detect_short_header (text : string) :
  String.length text < header_width ->
  detect_delimiters text = Err (X12Error MalformedHeaderError).
Proof.
  intros Hlen. apply detect_wrong_width. intros Hheader.
  apply header_length_within in Hheader. lia.
Qed.

Lemma detect_coinciding_separators (text : string) (e c t : ascii) :
  String.get ele_sep_offset text = Some e ->
  String.get sub_sep_offset text = Some c ->
  String.get seg_term_offset text = Some t ->
  e = c \/ e = t \/ c = t ->
  detect_delimiters text = Err (X12Error MalformedHeaderError).
Proof.
  intros He Hc Ht Hsame. unfold detect_delimiters.
  destruct (bool_decide (header_length text = Some header_width)); [|done].
  rewrite He, Hc, Ht.
  destruct Hsame as [-> | [-> | ->]]; rewrite Ascii.eqb_refl;
    by rewrite ?orb_true_r.
Qed.

Example detect_sample_clash :
  detect_delimiters sample_clash = Err (X12Error MalformedHeaderError).
Proof.
  apply (detect_coinciding_separators sample_clash "*" "*" "~");
    try reflexivity. by left.
Qed.

Example build_sample_keeps_segments :
  flatten (root sample_tree) =
  gen_items (tokenize sample_delims max_segment_length sample_837p).
Proof.
  apply (build_keeps_segments grammar_837p). vm_compute. reflexivity.
Qed.
End EngineFacts.

(** ** The engine behind the scripts *)

Section EngineClaims.
Import Engine.
Variable g : Grammar.
Variable max_len : nat.
Variable json_dumps : json -> string.
#[local] Abbreviation lib := (engine g max_len).

(** C5: the query API answers missing data with an empty sequence or an
    absent value: [loopsOf] is empty when no loop of the tree has the
    identifier; [valueAt] is absent when no direct segment child has the
    segment identifier, when the first such segment has no element at the
    index, and when that element has no sub-element at the sub-index.
    Over every tree that was built, the script returns the records of
    section 4.5, where an absent value is null. *)
Theorem query_api_absence_is_not_an_error :
  (forall node loopId,
     (forall m, m ∈ loops_in node -> loop_id m <> loopId) ->
     loopsOf node loopId = []) /\
  (forall node segmentId i sub,
     (forall s, s ∈ segments_of node -> seg_id s <> segmentId) ->
     valueAt node segmentId i sub = None) /\
  (forall node segmentId i sub s,
     find (fun s => String.eqb (seg_id s) segmentId) (segments_of node) = Some s ->
     i = 0 \/ length (elements s) < i ->
     valueAt node segmentId i sub = None) /\
  (forall node segmentId i j s e,
     find (fun s => String.eqb (seg_id s) segmentId) (segments_of node) = Some s ->
     element_at s i = Some e ->
     match e with
     | Plain _ => True
     | Composite subs => j = 0 \/ length subs < j
     end ->
     valueAt node segmentId i (Some j) = None) /\
  (forall fs path text d tree,
     fs !! path = Some text ->
     detect_delimiters text = Ok d ->
     build g (tokenize d max_len text) = Ok tree ->
     @Claims.extract_claims_from_837p lib fs path = Ok (claims_of d tree)).
Proof.
  split_and!.
  - apply loopsOf_none.
  - apply valueAt_no_segment.
  - apply valueAt_no_element.
  - apply valueAt_no_sub_element.
  - apply engine_extract.
Qed.

(** C6: an interchange whose header declares [*], [:] and [~], with one
    claim loop (CLAIM001, 250.00) and two service-line loops under it
    (99213, 100.00) and (99214, 150.00), gives exactly one claim object
    with these two service lines in that order, every value the string
    that stands in the file. *)
Theorem end_to_end_one_claim_two_lines
    (fs : filesystem) (path text : string) (tree : LoopTree)
    (claim sl1 sl2 : LoopNode) :
  fs !! path = Some text ->
  detect_delimiters text =
    Ok {| seg_term := "~"; ele_sep := "*"; sub_sep := ":"; rep_sep := None |} ->
  build g
    (tokenize {| seg_term := "~"; ele_sep := "*"; sub_sep := ":"; rep_sep := None |}
       max_len text) = Ok tree ->
  loopsOf (root tree) "2300" = [claim] ->
  valueAt claim "CLM" 1 None = Some (Plain "CLAIM001") ->
  valueAt claim "CLM" 2 None = Some (Plain "250.00") ->
  loopsOf claim "2400" = [sl1; sl2] ->
  valueAt sl1 "SV1" 1 None = Some (Plain "99213") ->
  valueAt sl1 "SV1" 2 None = Some (Plain "100.00") ->
  valueAt sl2 "SV1" 1 None = Some (Plain "99214") ->
  valueAt sl2 "SV1" 2 None = Some (Plain "150.00") ->
  @Claims.extract_claims_from_837p lib fs path =
  Ok [JDict [("claim_id", JStr "CLAIM001");
             ("total_charge", JStr "250.00");
             ("service_lines",
              JList [JDict [("procedure_code", JStr "99213");
                            ("line_charge", JStr "100.00")];
                     JDict [("procedure_code", JStr "99214");
                            ("line_charge", JStr "150.00")]])]].
Proof.
  intros Hf Hd Hbuild Hclaims Hid Hcharge Hlines Hp1 Hc1 Hp2 Hc2.
  rewrite (engine_extract g max_len fs path text _ tree Hf Hd Hbuild).
  unfold claims_of. rewrite Hclaims. simpl. rewrite Hid, Hcharge, Hlines.
  simpl. unfold service_line_of. by rewrite Hp1, Hc1, Hp2, Hc2.
Qed.

(** C8: a text whose header is not [header_width] characters long (in
    particular a text that ends before them), or whose header names one
    character for two separators, makes header detection fail with
    [MalformedHeaderError].  The flat dump reports it as a [RuntimeError]
    naming the file, the claim extraction lets it through; either script
    ends with a non-zero status, prints nothing and writes no file. *)
Theorem malformed_header_is_fatal (fs : filesystem) (path text : string) :
  fs !! path = Some text ->
  (String.length text < header_width \/
   header_length text <> Some header_width \/
   exists e c t,
     String.get ele_sep_offset text = Some e /\
     String.get sub_sep_offset text = Some c /\
     String.get seg_term_offset text = Some t /\
     (e = c \/ e = t \/ c = t)) ->
  detect_delimiters text = Err (X12Error MalformedHeaderError) /\
  @Flat.x12_to_flat_json lib fs path =
    Err (RuntimeError
           (path ++ " does not look like X12: " ++
            error_text MalformedHeaderError)) /\
  @Claims.extract_claims_from_837p lib fs path =
    Err (X12Error MalformedHeaderError) /\
  forall output,
    let flat := @Flat.main lib json_dumps fs path output in
    let claims := @Claims.main lib json_dumps fs path output in
    (exit_status flat <> 0 /\ stdout flat = [] /\ files flat = fs) /\
    (exit_status claims <> 0 /\ stdout claims = [] /\ files claims = fs).
Proof.
  intros Hf Hbad.
  assert (Hd : detect_delimiters text = Err (X12Error MalformedHeaderError)).
  { destruct Hbad as [Hlen | [Hwidth | (e & c & t & He & Hc & Ht & Hsame)]].
    - by apply detect_short_header.
    - by apply detect_wrong_width.
    - by apply (detect_coinciding_separators text e c t). }
  assert (Hflat : @Flat.x12_to_flat_json lib fs path =
            Err (RuntimeError
                   (path ++ " does not look like X12: " ++
                    error_text MalformedHeaderError))).
  { unfold Flat.x12_to_flat_json, open_r.
    rewrite (is_file_lookup _ _ _ Hf), Hf. simpl.
    unfold open_reader. by rewrite Hd. }
  assert (Hclaims : @Claims.extract_claims_from_837p lib fs path =
            Err (X12Error MalformedHeaderError)).
  { apply (@extract_claims_err lib fs path text); [done|]. left.
    simpl. unfold open_reader. by rewrite Hd. }
  split_and!; try done.
  intros output flat claims. subst flat claims.
  rewrite (@flat_main_err lib json_dumps _ _ _ _ Hflat).
  rewrite (@claims_main_err lib json_dumps _ _ _ _ Hclaims).
  simpl. by split_and!.
Qed.
End EngineClaims.

(** ** Sample runs *)

Section SampleRuns.
Import Engine.

Local Ltac by_evaluation := vm_compute; reflexivity.

Lemma claim_dropped_iff_both_absent_gaps :
  @Claims.extract_claims_from_837p pyx12_837p sample_fs "gaps.837" =
  Ok sample_gaps_claims.
Proof.
  rewrite (@claim_dropped_iff_both_absent pyx12_837p sample_fs "gaps.837"
             sample_gaps (sample_delims, sample_gaps) (sample_entries sample_gaps));
    by_evaluation.
Defined.

Lemma flat_dump_lists_every_segment_sample :
  exists segments,
    @Flat.x12_to_flat_json pyx12_837p sample_fs "claims.837" =
    Ok (JDict [("file", JStr "claims.837"); ("segments", JList segments)]) /\
    length segments = 16 /\
    forall i,
      segments !! i =
      (fun seg => JDict [("segment_id", JStr (seg_id seg));
                         ("elements", JList (element_json <$> elements seg))]) <$>
      gen_items (tokenize sample_delims max_segment_length sample_837p) !! i.
Proof.
  apply (@flat_dump_lists_every_segment pyx12_837p sample_fs "claims.837"
           sample_837p (sample_delims, sample_837p)
           (gen_items (tokenize sample_delims max_segment_length sample_837p)));
    by_evaluation.
Defined.

Lemma service_lines_never_dropped_gaps :
  exists out,
    @Claims.extract_claims_from_837p pyx12_837p sample_fs "gaps.837" = Ok out /\
    forall n,
      n ∈ sample_entries sample_gaps ->
      @has_claim_data pyx12_837p n = true ->
      exists service_lines,
        JDict [("claim_id", of_py (node_value n "CLM01"));
               ("total_charge", of_py (node_value n "CLM02"));
               ("service_lines", JList service_lines)] ∈ out /\
        length service_lines = length (nodes (dn_delims n) (dn_loop n) "2400") /\
        forall j sl,
          nodes (dn_delims n) (dn_loop n) "2400" !! j = Some sl ->
          service_lines !! j =
          Some (JDict [("procedure_code", of_py (node_value sl "SV101"));
                       ("line_charge", of_py (node_value sl "SV102"))]).
Proof.
  apply (@service_lines_never_dropped pyx12_837p sample_fs "gaps.837"
           sample_gaps (sample_delims, sample_gaps) (sample_entries sample_gaps));
    by_evaluation.
Defined.

Lemma extraction_preserves_file_order_gaps :
  let kept := List.filter (@has_claim_data pyx12_837p) (sample_entries sample_gaps) in
  exists out,
    @Claims.extract_claims_from_837p pyx12_837p sample_fs "gaps.837" = Ok out /\
    kept `sublist_of` sample_entries sample_gaps /\
    length out = length kept /\
    forall i n,
      kept !! i = Some n ->
      exists service_lines,
        out !! i =
        Some (JDict [("claim_id", of_py (node_value n "CLM01"));
                     ("total_charge", of_py (node_value n "CLM02"));
                     ("service_lines", JList service_lines)]) /\
        length service_lines = length (nodes (dn_delims n) (dn_loop n) "2400") /\
        forall j,
          service_lines !! j =
          @service_line_record pyx12_837p <$>
            nodes (dn_delims n) (dn_loop n) "2400" !! j.
Proof.
  apply (@extraction_preserves_file_order pyx12_837p sample_fs "gaps.837"
           sample_gaps (sample_delims, sample_gaps) (sample_entries sample_gaps));
    by_evaluation.
Defined.

Lemma claim_records_shape_gaps :
  exists kept : list DataNode,
    Forall2
      (fun n r =>
         keys r = ["claim_id"; "total_charge"; "service_lines"] /\
         exists service_lines,
           field "service_lines" r = Some (JList service_lines) /\
           length service_lines = length (nodes (dn_delims n) (dn_loop n) "2400") /\
           Forall (fun sl => keys sl = ["procedure_code"; "line_charge"])
             service_lines)
      kept sample_gaps_claims.
Proof.
  apply (@claim_records_shape pyx12_837p sample_fs "gaps.837" sample_gaps_claims).
  by_evaluation.
Defined.

Lemma parse_error_aborts_extraction_truncated :
  @Claims.extract_claims_from_837p pyx12_837p sample_fs "truncated.837" =
    Err (X12Error (TokenizeError 229)) /\
  forall output,
    let run := @Claims.main pyx12_837p sample_dumps sample_fs "truncated.837" output in
    exit_status run <> 0 /\ stdout run = [] /\ files run = sample_fs.
Proof.
  apply (@parse_error_aborts_extraction pyx12_837p sample_dumps sample_fs
           "truncated.837" (X12Error (TokenizeError 229))).
  right; right. exists sample_truncated, (sample_delims, sample_truncated).
  split; [|split]; by_evaluation.
Defined.

Lemma query_api_absence_is_not_an_error_gaps :
  loopsOf (root sample_gaps_tree) "2420A" = [] /\
  valueAt sample_claim "REF" 1 None = None /\
  valueAt sample_gaps_claim "CLM" 2 None = None /\
  valueAt sample_claim "CLM" 5 (Some 4) = None /\
  @Claims.extract_claims_from_837p pyx12_837p sample_fs "gaps.837" =
  Ok (claims_of sample_delims sample_gaps_tree).
Proof.
  destruct (query_api_absence_is_not_an_error grammar_837p max_segment_length)
    as (Hloops & Hsegment & Helement & Hsub & Hrun).
  split; [|split; [|split; [|split]]].
  - apply Hloops. apply Forall_forall. vm_compute.
    repeat (constructor; [discriminate|]). constructor.
  - apply Hsegment. apply Forall_forall. vm_compute.
    repeat (constructor; [discriminate|]). constructor.
  - eapply Helement; [by_evaluation|]. right. vm_compute. lia.
  - eapply Hsub; [by_evaluation|by_evaluation|]. right. vm_compute. lia.
  - apply (Hrun sample_fs "gaps.837" sample_gaps); by_evaluation.
Defined.

Lemma end_to_end_one_claim_two_lines_sample :
  @Claims.extract_claims_from_837p pyx12_837p sample_fs "claims.837" =
  Ok sample_claims.
Proof.
  apply (end_to_end_one_claim_two_lines grammar_837p max_segment_length sample_fs
           "claims.837" sample_837p sample_tree sample_claim
           (sample_line 0) (sample_line 1));
    by_evaluation.
Defined.

Lemma malformed_header_is_fatal_samples :
  (detect_delimiters sample_short_header = Err (X12Error MalformedHeaderError) /\
   @Flat.x12_to_flat_json pyx12_837p sample_fs "short.837" =
     Err (RuntimeError
            "short.837 does not look like X12: malformed interchange header") /\
   @Claims.extract_claims_from_837p pyx12_837p sample_fs "short.837" =
     Err (X12Error MalformedHeaderError) /\
   forall output,
     let flat := @Flat.main pyx12_837p sample_dumps sample_fs "short.837" output in
     let claims := @Claims.main pyx12_837p sample_dumps sample_fs "short.837" output in
     (exit_status flat <> 0 /\ stdout flat = [] /\ files flat = sample_fs) /\
     (exit_status claims <> 0 /\ stdout claims = [] /\ files claims = sample_fs)) /\
  (detect_delimiters sample_narrow = Err (X12Error MalformedHeaderError) /\
   @Flat.x12_to_flat_json pyx12_837p sample_narrow_fs "narrow.837" =
     Err (RuntimeError
            "narrow.837 does not look like X12: malformed interchange header") /\
   @Claims.extract_claims_from_837p pyx12_837p sample_narrow_fs "narrow.837" =
     Err (X12Error MalformedHeaderError) /\
   forall output,
     let flat :=
       @Flat.main pyx12_837p sample_dumps sample_narrow_fs "narrow.837" output in
     let claims :=
       @Claims.main pyx12_837p sample_dumps sample_narrow_fs "narrow.837" output in
     (exit_status flat <> 0 /\ stdout flat = [] /\ files flat = sample_narrow_fs) /\
     (exit_status claims <> 0 /\ stdout claims = [] /\
      files claims = sample_narrow_fs)).
Proof.
  split.
  - apply (malformed_header_is_fatal grammar_837p max_segment_length sample_dumps
             sample_fs "short.837" sample_short_header).
    + by_evaluation.
    + left. apply Nat.ltb_lt. by_evaluation.
  - apply (malformed_header_is_fatal grammar_837p max_segment_length sample_dumps
             sample_narrow_fs "narrow.837" sample_narrow).
    + by_evaluation.
    + right; left. vm_compute. discriminate.
Defined.
End SampleRuns.

(** ** More on the two scripts *)

Section Scripts.
Context `{Pyx12}.

(** *** How the flat dump fails *)

(** For a file that can be read: an [X12Error] from the reader
    constructor leaves the flat dump as a [RuntimeError] whose text ends
    with the library's message; any other exception from the constructor
    leaves it unchanged; an exception raised while iterating leaves it
    unchanged as well, an [X12Error] included, whatever segments were
    yielded before, and no dump is returned. *)
Theorem flat_json_error_paths (fs : filesystem) (path f : string) :
  fs !! path = Some f ->
  (forall x,
     X12Reader f = Err (X12Error x) ->
     exists shown,
       Flat.x12_to_flat_json fs path =
       Err (RuntimeError (shown ++ " does not look like X12: " ++ x12error_str x))) /\
  (forall e,
     X12Reader f = Err e ->
     (forall x, e <> X12Error x) ->
     Flat.x12_to_flat_json fs path = Err e) /\
  (forall reader e,
     X12Reader f = Ok reader ->
     gen_error (reader_iter reader) = Some e ->
     Flat.x12_to_flat_json fs path = Err e).
Proof.
  intros Hf. unfold Flat.x12_to_flat_json, open_r.
  rewrite (is_file_lookup _ _ _ Hf), Hf. simpl. unfold mbind, result_bind.
  split_and!.
  - intros x ->. by exists path.
  - intros e -> Hnot. destruct e as [p|m|x]; try done. by destruct (Hnot x).
  - intros reader e -> Hg. by rewrite segments_loop_gen, Hg.
Qed.

(** *** What the flat dump returns *)

(** A dump that is returned comes from a file that was read to the end;
    it has exactly the keys [file], a string, and [segments], and every
    entry of [segments] has exactly the keys [segment_id], a string, and
    [elements], a list. *)
Theorem flat_json_shape (fs : filesystem) (path : string) (data : json) :
  Flat.x12_to_flat_json fs path = Ok data ->
  keys data = ["file"; "segments"] /\
  (exists name, field "file" data = Some (JStr name)) /\
  exists f reader segments,
    fs !! path = Some f /\
    X12Reader f = Ok reader /\
    gen_error (reader_iter reader) = None /\
    field "segments" data = Some (JList segments) /\
    length segments = length (gen_items (reader_iter reader)) /\
    Forall (fun entry =>
              keys entry = ["segment_id"; "elements"] /\
              exists id values,
                field "segment_id" entry = Some (JStr id) /\
                field "elements" entry = Some (JList values)) segments.
Proof.
  unfold Flat.x12_to_flat_json, is_file, open_r.
  destruct (fs !! path) as [f|] eqn:Hf.
  2:{ rewrite bool_decide_eq_false_2 by (intros [? ?]; done). done. }
  rewrite bool_decide_eq_true_2 by eauto. simpl. unfold mbind, result_bind.
  destruct (X12Reader f) as [reader|[p|m|x]] eqn:Hr; try done.
  rewrite segments_loop_gen.
  destruct (gen_error (reader_iter reader)) eqn:Hg; [done|].
  intros [= <-]. split_and!; [done|by exists path|].
  exists f, reader, (segment_record <$> gen_items (reader_iter reader)).
  split_and!; try done.
  - by rewrite length_fmap.
  - apply Forall_fmap, Forall_forall. intros seg _. split; [done|].
    by exists (get_seg_id seg), (values_iterator seg).
Qed.
End Scripts.

(** ** The loops and the records *)

Section Runs.
Context `{Pyx12}.

(** *** The loops, piece by piece *)

(** The claims loop over one generator followed by another is the loop
    over the first, continued over the second with the claims gathered so
    far; an exception in the first keeps the second from being read. *)
Theorem claims_loop_gen_app (g1 g2 : gen Node) (claims : list json) :
  Claims.claims_loop (gen_app g1 g2) claims =
  Claims.claims_loop g1 claims ≫= Claims.claims_loop g2.
Proof.
  revert claims. induction g1 as [|n g1 IH|e]; intros claims; try done.
  simpl gen_app. by rewrite !claims_loop_yield, IH.
Qed.

(** The same for the segments loop of the flat dump. *)
Theorem segments_loop_gen_app (g1 g2 : gen Seg) (segments : list json) :
  Flat.segments_loop (gen_app g1 g2) segments =
  Flat.segments_loop g1 segments ≫= Flat.segments_loop g2.
Proof.
  revert segments. induction g1 as [|seg g1 IH|e]; intros segments; try done.
  simpl. by rewrite IH.
Qed.

(** *** Reading the records back *)

(** The i-th record holds the values pyx12 gave for the i-th kept entry,
    and they can be read back: a missing value as [None], a string as
    itself, the empty string included.  The same holds for each service
    line. *)
Theorem records_decode
    (fs : filesystem) (path f : string) (ctx : Ctx) (entries : list Node)
    (out : list json) :
  fs !! path = Some f ->
  X12ContextReader ParamsUnix errh_null f = Ok ctx ->
  iter_segments ctx "2300" = gen_of_list entries ->
  Claims.extract_claims_from_837p fs path = Ok out ->
  forall i n,
    List.filter has_claim_data entries !! i = Some n ->
    exists r lines,
      out !! i = Some r /\
      field "claim_id" r ≫= to_py = Some (get_value n "CLM01") /\
      field "total_charge" r ≫= to_py = Some (get_value n "CLM02") /\
      field "service_lines" r = Some (JList lines) /\
      forall j sl,
        select n "2400" !! j = Some sl ->
        exists line,
          lines !! j = Some line /\
          field "procedure_code" line ≫= to_py = Some (get_value sl "SV101") /\
          field "line_charge" line ≫= to_py = Some (get_value sl "SV102").
Proof.
  intros Hf Hctx Hit. rewrite (extract_claims_ok _ _ _ _ _ Hf Hctx Hit).
  intros [= <-] i n Hi.
  exists (claim_record n), (service_line_record <$> select n "2400").
  split_and!.
  - by rewrite list_lookup_fmap, Hi.
  - simpl. by destruct (get_value n "CLM01").
  - simpl. by destruct (get_value n "CLM02").
  - done.
  - intros j sl Hj. exists (service_line_record sl). split_and!.
    + by rewrite list_lookup_fmap, Hj.
    + simpl. by destruct (get_value sl "SV101").
    + simpl. by destruct (get_value sl "SV102").
Qed.

(** *** How many records *)

Lemma filter_length_facts {A} (p : A -> bool) (l : list A) :
  length (List.filter p l) <= length l /\
  (length (List.filter p l) = length l <-> forall a, a ∈ l -> p a = true) /\
  (List.filter p l = [] <-> forall a, a ∈ l -> p a = false).
Proof.
  induction l as [|a l (IHle & IHall & IHnil)]; simpl.
  - split_and!; [lia| |]; (split; [|done]); intros _ a Ha;
      by apply elem_of_nil in Ha.
  - destruct (p a) eqn:Hpa; simpl.
    + split_and!; [lia| |].
      * split.
        -- intros Hlen a' Ha'. apply elem_of_cons in Ha' as [->|Ha']; [done|].
           apply IHall; [lia|done].
        -- intros Hall. f_equal. apply IHall. intros a' Ha'. apply Hall.
           by right.
      * split; [done|]. intros Hall. rewrite Hall in Hpa; [done|by left].
    + split_and!; [lia| |].
      * split; [lia|]. intros Hall. rewrite Hall in Hpa; [done|by left].
      * rewrite IHnil. split.
        -- intros Hnil a' Ha'. apply elem_of_cons in Ha' as [->|Ha']; [done|].
           by apply Hnil.
        -- intros Hall a' Ha'. apply Hall. by right.
Qed.

(** There are never more records than entries; there are as many exactly
    when every entry has a claim identifier or a total charge, and none
    exactly when no entry has either.  A file without claim loops gives
    the empty list, not an error. *)
Theorem claims_count
    (fs : filesystem) (path f : string) (ctx : Ctx) (entries : list Node)
    (out : list json) :
  fs !! path = Some f ->
  X12ContextReader ParamsUnix errh_null f = Ok ctx ->
  iter_segments ctx "2300" = gen_of_list entries ->
  Claims.extract_claims_from_837p fs path = Ok out ->
  length out <= length entries /\
  (length out = length entries <->
   forall n, n ∈ entries ->
     get_value n "CLM01" <> None \/ get_value n "CLM02" <> None) /\
  (out = [] <->
   forall n, n ∈ entries ->
     get_value n "CLM01" = None /\ get_value n "CLM02" = None).
Proof.
  intros Hf Hctx Hit. rewrite (extract_claims_ok _ _ _ _ _ Hf Hctx Hit).
  intros [= <-]. rewrite length_fmap.
  assert (Hmap : claim_record <$> List.filter has_claim_data entries = [] <->
                 List.filter has_claim_data entries = []).
  { split; [apply fmap_nil_inv|by intros ->]. }
  rewrite Hmap.
  assert (Hdata : forall n, has_claim_data n = true <->
            get_value n "CLM01" <> None \/ get_value n "CLM02" <> None).
  { intros n. unfold has_claim_data.
    destruct (get_value n "CLM01"), (get_value n "CLM02"); simpl;
      split; intros Hn; try done; eauto. by destruct Hn. }
  assert (Hnone : forall n, has_claim_data n = false <->
            get_value n "CLM01" = None /\ get_value n "CLM02" = None).
  { intros n. unfold has_claim_data.
    destruct (get_value n "CLM01"), (get_value n "CLM02"); simpl;
      split; intros Hn; try done; by destruct Hn. }
  destruct (filter_length_facts has_claim_data entries) as (Hle & Hall & Hnil).
  split_and!; [done| |].
  - rewrite Hall. split; intros Hn n Hin; apply Hdata; by apply Hn.
  - rewrite Hnil. split; intros Hn n Hin; apply Hnone; by apply Hn.
Qed.
End Runs.

(** ** More sample runs *)

Section MoreSampleRuns.
Import Engine.

Local Ltac by_evaluation := vm_compute; reflexivity.

Lemma flat_json_error_paths_truncated :
  @Flat.x12_to_flat_json pyx12_837p sample_fs "truncated.837" =
  Err (X12Error (TokenizeError 229)).
Proof.
  apply (proj2 (proj2 (@flat_json_error_paths pyx12_837p sample_fs "truncated.837"
                         sample_truncated ltac:(by_evaluation)))
           (sample_delims, sample_truncated)); by_evaluation.
Defined.

Lemma flat_json_shape_sample :
  exists data,
    @Flat.x12_to_flat_json pyx12_837p sample_fs "claims.837" = Ok data /\
    keys data = ["file"; "segments"] /\
    exists name, field "file" data = Some (JStr name).
Proof.
  eexists. split; [by_evaluation|].
  pose proof (@flat_json_shape pyx12_837p sample_fs "claims.837" _
                ltac:(by_evaluation)) as (Hkeys & Hfile & _).
  by split.
Defined.

Lemma records_decode_gaps :
  exists r lines,
    sample_gaps_claims !! 1 = Some r /\
    field "claim_id" r ≫= to_py =
      Some (@get_value pyx12_837p sample_gaps_second "CLM01") /\
    field "total_charge" r ≫= to_py =
      Some (@get_value pyx12_837p sample_gaps_second "CLM02") /\
    field "service_lines" r = Some (JList lines) /\
    forall j sl,
      @select pyx12_837p sample_gaps_second "2400" !! j = Some sl ->
      exists line,
        lines !! j = Some line /\
        field "procedure_code" line ≫= to_py =
          Some (@get_value pyx12_837p sl "SV101") /\
        field "line_charge" line ≫= to_py =
          Some (@get_value pyx12_837p sl "SV102").
Proof.
  assert (H1 : sample_fs !! "gaps.837" = Some sample_gaps) by by_evaluation.
  assert (H2 : @X12ContextReader pyx12_837p ParamsUnix errh_null sample_gaps =
               Ok (sample_delims, sample_gaps)) by by_evaluation.
  assert (H3 : @iter_segments pyx12_837p (sample_delims, sample_gaps) "2300" =
               gen_of_list (sample_entries sample_gaps)) by by_evaluation.
  assert (H4 : @Claims.extract_claims_from_837p pyx12_837p sample_fs "gaps.837" =
               Ok sample_gaps_claims) by by_evaluation.
  assert (H5 : List.filter (@has_claim_data pyx12_837p)
                 (sample_entries sample_gaps) !! 1 = Some sample_gaps_second)
    by by_evaluation.
  exact (@records_decode pyx12_837p sample_fs "gaps.837" sample_gaps
           (sample_delims, sample_gaps) (sample_entries sample_gaps)
           sample_gaps_claims H1 H2 H3 H4 1 sample_gaps_second H5).
Defined.

Lemma claims_count_gaps :
  length sample_gaps_claims <= length (sample_entries sample_gaps).
Proof.
  apply (@claims_count pyx12_837p sample_fs "gaps.837" sample_gaps
           (sample_delims, sample_gaps) (sample_entries sample_gaps)
           sample_gaps_claims); by_evaluation.
Defined.
End MoreSampleRuns.
